(** * use-safe-context: the [useSafeContext] hook of [src/index.ts]

    A shallow embedding of the hook and of the JavaScript operations it is
    built from ([String.prototype.split], array indexing, method calls on a
    possibly-undefined receiver, template literals, [throw]), followed by the
    properties of the hook. *)

From Stdlib Require Import String Ascii List Arith Lia Bool.
Import ListNotations.
Open Scope string_scope.

(** ** JavaScript values that may be [undefined] *)

Inductive or_undefined (A : Type) : Type :=
| undefined : or_undefined A
| defined (a : A) : or_undefined A.
Arguments undefined {A}.
Arguments defined {A} a.

(** [a ?? b] *)
Definition nullish {A : Type} (a : or_undefined A) (b : A) : A :=
  match a with
  | defined x => x
  | undefined => b
  end.

(** ** Completions: a call returns normally or throws *)

(** The two kinds of exception the hook can end with: the [Error] it builds
    itself, and the [TypeError] the runtime raises when a property (here
    [split]) is read from [undefined]. *)
Inductive thrown : Type :=
| Error (message : string)
| TypeError_undefined (property : string).

Inductive completion (A : Type) : Type :=
| Normal (a : A)
| Throw (e : thrown).
Arguments Normal {A} a.
Arguments Throw {A} e.

Definition bind {A B : Type} (c : completion A) (k : A -> completion B) : completion B :=
  match c with
  | Normal a => k a
  | Throw e => Throw e
  end.

Notation "x <- c ;; k" := (bind c (fun x => k))
  (at level 61, c at next level, right associativity).

(** ** Strings *)

Module JsString.

(** [split_from sep s skip] scans [s] from left to right.  [skip] counts
    the characters of a separator match that are still to be consumed.
    The result is the list of pieces; its head is the piece in progress. *)
Fixpoint split_from (sep s : string) (skip : nat) : list string :=
  match s with
  | EmptyString => [""]
  | String c s' =>
      match skip with
      | S k => split_from sep s' k
      | O =>
          if prefix sep s
          then "" :: split_from sep s' (String.length sep - 1)
          else match split_from sep s' 0 with
               | piece :: pieces => String c piece :: pieces
               | [] => [String c ""]
               end
      end
  end.

Definition chars (s : string) : list string :=
  map (fun c => String c "") (list_ascii_of_string s).

(** [s.split(sep)]: every non-overlapping occurrence of [sep], found from
    the left, ends a piece; the empty separator splits into characters. *)
Definition split (sep s : string) : list string :=
  match sep with
  | EmptyString => chars s
  | String _ _ => split_from sep s 0
  end.

(** [s.includes(sep)] *)
Fixpoint includes (sep s : string) : bool :=
  prefix sep s ||
  match s with
  | EmptyString => false
  | String _ s' => includes sep s'
  end.

(** The part of [s] before the first occurrence of [sep] (all of [s] when
    [sep] does not occur). *)
Fixpoint before_first (sep s : string) : string :=
  match s with
  | EmptyString => ""
  | String c s' => if prefix sep s then "" else String c (before_first sep s')
  end.

(** [unmatched sep a tail]: in [a ++ tail], no occurrence of [sep] starts
    inside [a]. *)
Fixpoint unmatched (sep a tail : string) : bool :=
  match a with
  | EmptyString => true
  | String _ a' => negb (prefix sep (a ++ tail)) && unmatched sep a' tail
  end.

End JsString.
Import JsString.

(** [arr[i]]: out of range reads give [undefined] *)
Definition at_index {A : Type} (arr : list A) (i : nat) : or_undefined A :=
  match nth_error arr i with
  | Some x => defined x
  | None => undefined
  end.

(** [recv.split(sep)], where [recv] may be [undefined] at run time: the
    non-null assertion [!] of TypeScript is erased by the compiler. *)
Definition call_split (recv : or_undefined string) (sep : string)
  : completion (list string) :=
  match recv with
  | defined s => Normal (split sep s)
  | undefined => Throw (TypeError_undefined "split")
  end.

(** [`${x}`] *)
Definition interpolate (x : or_undefined string) : string :=
  match x with
  | defined s => s
  | undefined => "undefined"
  end.

(** ** The module *)

Section Hook.

(** [Context<T | undefined>] handles, the values they carry, and the state
    of the providers that enclose the component being rendered. *)
Variables (Context T Providers : Type).

(** A read primitive of React: the value of the nearest enclosing provider,
    or the default of the context. *)
Definition read_primitive : Type := Providers -> Context -> or_undefined T.

(** What the module imports from ['react']; [use] is missing in older
    versions. *)
Record React : Type := {
  use : or_undefined read_primitive;
  useContext : read_primitive
}.

(** The module-level bindings, evaluated once when the module is loaded. *)
Record Module : Type := {
  useHook : read_primitive
}.

(** [const useHook = use ?? useContext;] *)
Definition load (react : React) : Module :=
  {| useHook := nullish (use react) (useContext react) |}.

(** What one call sees of its surroundings: the enclosing providers, and
    the [stack] field of an [Error] object created at that point. *)
Record Call : Type := {
  providers : Providers;
  new_Error_stack : or_undefined string
}.

Definition useSafeContext (m : Module) (call : Call) (context : Context)
  : completion T :=
  let contextVal := useHook m (providers call) context in
  match contextVal with
  | undefined =>
      atPieces <- call_split (new_Error_stack call) "at " ;;
      let errorLine := at_index atPieces 2 in
      spacePieces <- call_split errorLine " " ;;
      let hookName := at_index spacePieces 0 in
      splitBySlash <- call_split errorLine "/" ;;
      dotPieces <- call_split (at_index splitBySlash (List.length splitBySlash - 1)) "." ;;
      let contextProviderName := at_index dotPieces 0 in
      Throw (Error (interpolate hookName ++ " must be used within "
                      ++ interpolate contextProviderName))
  | defined v => Normal v
  end.

(** Calling the hook once per render, each render with its own stack. *)
Definition renders (m : Module) (st : Providers) (context : Context)
    (stacks : list (or_undefined string)) : list (completion T) :=
  map (fun stk => useSafeContext m {| providers := st; new_Error_stack := stk |} context)
      stacks.

(** The exception built by the hook itself. *)
Definition is_hook_error (c : completion T) : bool :=
  match c with
  | Throw (Error _) => true
  | _ => false
  end.

End Hook.

Arguments use {Context T Providers} _.
Arguments useContext {Context T Providers} _.
Arguments useHook {Context T Providers} _.
Arguments load {Context T Providers} _.
Arguments providers {Providers} _.
Arguments new_Error_stack {Providers} _.
Arguments Build_Call {Providers} _ _.
Arguments Build_Module {Context T Providers} _.
Arguments Build_React {Context T Providers} _ _.
Arguments useSafeContext {Context T Providers} _ _ _.
Arguments renders {Context T Providers} _ _ _ _.
Arguments is_hook_error {T} _.

(** ** The names in terms of one stack segment *)

Definition LF : string := String "010"%char "".

(** The text after the last ['/'] of the segment (all of it without one). *)
Definition last_path_piece (errorLine : string) : string :=
  last (split "/" errorLine) "".

Definition hookName_of (errorLine : string) : string :=
  before_first " " errorLine.

Definition contextProviderName_of (errorLine : string) : string :=
  before_first "." (last_path_piece errorLine).

Definition message (hookName contextProviderName : string) : string :=
  hookName ++ " must be used within " ++ contextProviderName.

(** ** Stack traces as V8 prints them

    The README shows the format: a header line, then one line per frame,
    each made of a line break, four spaces, ["at "] and the frame's
    descriptor. *)
Definition indent : string := LF ++ "    ".

Fixpoint v8_frame_lines (frames : list string) : string :=
  match frames with
  | [] => ""
  | frame :: more => indent ++ "at " ++ frame ++ v8_frame_lines more
  end.

Definition v8_stack (frames : list string) : string :=
  "Error" ++ v8_frame_lines frames.

(** What follows a frame's descriptor up to the next ["at "]. *)
Definition line_end (more : list string) : string :=
  match more with
  | [] => ""
  | _ :: _ => indent
  end.

(** SpiderMonkey and JavaScriptCore print [name@location] lines instead. *)
Fixpoint at_sign_stack (frames : list (string * string)) : string :=
  match frames with
  | [] => ""
  | (name, location) :: more => name ++ "@" ++ location ++ LF ++ at_sign_stack more
  end.

(** The stack is there and [split('at ')[2]] is an element of the array. *)
Definition has_error_line (stack : or_undefined string) : bool :=
  match stack with
  | defined s => (3 <=? List.length (split "at " s))%nat
  | undefined => false
  end.

(** ** The derivation in the words of the specification *)

Module Spec.

(** "the function-name token parsed from the descriptor (the substring up
    to the first space)" *)
Definition function_name_token (descriptor : string) : string :=
  before_first " " descriptor.

Fixpoint after_first_space (s : string) : string :=
  match s with
  | EmptyString => ""
  | String c s' => if Ascii.eqb c " " then s' else after_first_space s'
  end.

Definition drop_opening_paren (s : string) : string :=
  match s with
  | String "(" s' => s'
  | _ => s
  end.

(** "the source-location portion of that descriptor": what follows the
    function name, without the opening parenthesis; a descriptor without a
    function name is a location already. *)
Definition source_location (descriptor : string) : string :=
  if includes " " descriptor
  then drop_opening_paren (after_first_space descriptor)
  else descriptor.

(** "split on path separators, take the last path segment, then strip
    everything from the first [.] onward" *)
Definition bare_identifier (location : string) : string :=
  before_first "." (last (split "/" location) "").

Definition consumerHookName (frame1 : string) : string :=
  function_name_token frame1.

Definition expectedProviderName (frame2 : string) : string :=
  bare_identifier (source_location frame2).

End Spec.

(** ** Concrete calls used in the examples *)

Module Sample.

Definition no_provider : React unit nat unit :=
  {| use := undefined; useContext := fun _ _ => undefined |}.

Definition provided (n : nat) : React unit nat unit :=
  {| use := defined (fun _ _ => defined n); useContext := fun _ _ => defined n |}.

Definition call (stack : or_undefined string) : Call unit :=
  {| providers := tt; new_Error_stack := stack |}.

Definition outside (stack : or_undefined string) : completion nat :=
  useSafeContext (load no_provider) (call stack) tt.

(** The stack of the README, with the locations a browser reports. *)
Definition readme_frames : list string :=
  [ "useSafeContext (http://localhost:5173/node_modules/.vite/deps/use-safe-context.js?v=766d6ed6:11:138)";
    "useCounter (http://localhost:5173/src/ContextProvider.tsx:8:33)";
    "ConsumerComponent (http://localhost:5173/src/ConsumerComponent.tsx:4:21)" ].

(** The stack of the specification's example. *)
Definition synthetic_frames : list string :=
  [ "readSafe";
    "useCounter (ContextProvider.tsx:8:33)";
    "ConsumerComponent (ConsumerComponent.tsx:4:21)" ].

(** A consumer hook whose name ends in "at". *)
Definition chat_frames : list string :=
  [ "useSafeContext (http://localhost:5173/node_modules/.vite/deps/use-safe-context.js?v=766d6ed6:11:138)";
    "useChat (http://localhost:5173/src/ChatProvider.tsx:8:33)";
    "ChatWindow (http://localhost:5173/src/ChatWindow.tsx:4:21)" ].

(** The same call as [readme_frames], as Firefox reports it. *)
Definition firefox_frames : list (string * string) :=
  [ ("useSafeContext", "http://localhost:5173/node_modules/.vite/deps/use-safe-context.js?v=766d6ed6:11:138");
    ("useCounter", "http://localhost:5173/src/ContextProvider.tsx:8:33");
    ("ConsumerComponent", "http://localhost:5173/src/ConsumerComponent.tsx:4:21") ].

(** The reader installed under a directory whose name holds "at ". *)
Definition cat_frames : list string :=
  [ "useSafeContext (http://localhost:5173/my cat pics/node_modules/use-safe-context/dist/index.js:11:138)";
    "useCounter (http://localhost:5173/my cat pics/src/ContextProvider.tsx:8:33)";
    "ConsumerComponent (http://localhost:5173/my cat pics/src/ConsumerComponent.tsx:4:21)" ].

End Sample.

(** * Properties *)

(** ** Strings and [split] *)

Lemma append_assoc (a b c : string) : (a ++ b) ++ c = a ++ (b ++ c).
Proof.
  induction a as [|x a IH]; simpl; [reflexivity | now rewrite IH].
Qed.

Lemma append_empty_r (a : string) : a ++ "" = a.
Proof.
  induction a as [|x a IH]; simpl; [reflexivity | now rewrite IH].
Qed.

Lemma prefix_append (sep b : string) : prefix sep (sep ++ b) = true.
Proof.
  induction sep as [|x sep IH]; simpl.
  - now destruct b.
  - destruct (ascii_dec x x) as [_|ne]; [exact IH | now destruct ne].
Qed.

Lemma split_from_inhabited (sep s : string) (skip : nat) :
  exists piece pieces, split_from sep s skip = piece :: pieces.
Proof.
  revert skip; induction s as [|c s IH]; intros skip; cbn [split_from].
  - now exists "", [].
  - destruct skip as [|k]; [|apply IH].
    destruct (prefix sep (String c s)); [do 2 eexists; reflexivity|].
    destruct (IH 0) as (p & ps & ->). do 2 eexists; reflexivity.
Qed.

Lemma split_inhabited (sep s : string) :
  sep <> "" -> exists piece pieces, split sep s = piece :: pieces.
Proof.
  destruct sep; [congruence | intros _; apply split_from_inhabited].
Qed.

(** The first piece is the text before the first occurrence. *)
Lemma split_from_head (sep s : string) :
  exists pieces, split_from sep s 0 = before_first sep s :: pieces.
Proof.
  induction s as [|c s (ps & IH)]; cbn [split_from before_first].
  - now exists [].
  - destruct (prefix sep (String c s)); [eexists; reflexivity|].
    rewrite IH. eexists; reflexivity.
Qed.

Lemma split_from_skip (sep x b : string) :
  split_from sep (x ++ b) (String.length x) = split_from sep b 0.
Proof.
  induction x as [|c x IH]; simpl; [now destruct b | exact IH].
Qed.

Lemma split_from_at_sep (c : ascii) (x b : string) :
  split_from (String c x) (String c x ++ b) 0 = "" :: split_from (String c x) b 0.
Proof.
  change (split_from (String c x) (String c x ++ b) 0)
    with (if prefix (String c x) (String c x ++ b)
          then "" :: split_from (String c x) (x ++ b) (String.length (String c x) - 1)
          else match split_from (String c x) (x ++ b) 0 with
               | piece :: pieces => String c piece :: pieces
               | [] => [String c ""]
               end).
  rewrite prefix_append.
  change (String.length (String c x) - 1) with (String.length x - 0).
  now rewrite Nat.sub_0_r, split_from_skip.
Qed.

(** A piece that holds no match ends at the separator that follows it. *)
Lemma split_from_app (c : ascii) (x a b : string) :
  unmatched (String c x) a (String c x ++ b) = true ->
  split_from (String c x) (a ++ String c x ++ b) 0
  = a :: split_from (String c x) b 0.
Proof.
  set (sep := String c x).
  induction a as [|d a IH]; intros H.
  - apply split_from_at_sep.
  - cbn [unmatched] in H. apply andb_prop in H as [H1 H2].
    apply negb_true_iff in H1.
    change (String d a ++ sep ++ b) with (String d (a ++ sep ++ b)) in *.
    cbn [split_from]. rewrite H1, (IH H2). reflexivity.
Qed.

Lemma before_first_app (c : ascii) (x a b : string) :
  unmatched (String c x) a (String c x ++ b) = true ->
  before_first (String c x) (a ++ String c x ++ b) = a.
Proof.
  intros H. pose proof (split_from_app c x a b H) as E.
  destruct (split_from_head (String c x) (a ++ String c x ++ b)) as (ps & E').
  congruence.
Qed.

Lemma includes_cons (sep : string) (c : ascii) (s : string) :
  includes sep (String c s) = false ->
  prefix sep (String c s) = false /\ includes sep s = false.
Proof.
  cbn [includes]. intros H. now apply orb_false_elim in H.
Qed.

Lemma split_from_whole (sep s : string) :
  includes sep s = false -> split_from sep s 0 = [s].
Proof.
  induction s as [|c s IH]; intros H; [reflexivity|].
  apply includes_cons in H as [H1 H2].
  cbn [split_from]. now rewrite H1, (IH H2).
Qed.

Lemma before_first_whole (sep s : string) :
  includes sep s = false -> before_first sep s = s.
Proof.
  induction s as [|c s IH]; intros H; [reflexivity|].
  apply includes_cons in H as [H1 H2].
  cbn [before_first]. now rewrite H1, (IH H2).
Qed.

Lemma unmatched_app (sep a1 a2 tail : string) :
  unmatched sep (a1 ++ a2) tail
  = unmatched sep a1 (a2 ++ tail) && unmatched sep a2 tail.
Proof.
  induction a1 as [|c a1 IH]; [reflexivity|].
  change (String c a1 ++ a2) with (String c (a1 ++ a2)).
  cbn [unmatched]. rewrite IH.
  change (String c (a1 ++ a2) ++ tail) with (String c ((a1 ++ a2) ++ tail)).
  change (String c a1 ++ a2 ++ tail) with (String c (a1 ++ a2 ++ tail)).
  now rewrite append_assoc, andb_assoc.
Qed.

(** *** Separators of one character *)

Lemma prefix_char (c d : ascii) (s t : string) :
  prefix (String c "") (String d s) = prefix (String c "") (String d t).
Proof.
  simpl. destruct (ascii_dec c d); [now destruct s, t | reflexivity].
Qed.

Lemma unmatched_char (c : ascii) (a tail : string) :
  includes (String c "") a = false -> unmatched (String c "") a tail = true.
Proof.
  induction a as [|d a IH]; intros H; [reflexivity|].
  apply includes_cons in H as [H1 H2].
  cbn [unmatched]. rewrite (IH H2), andb_true_r.
  change (String d a ++ tail) with (String d (a ++ tail)).
  now rewrite (prefix_char c d (a ++ tail) a), H1.
Qed.

Lemma split_from_char_app (c : ascii) (a b : string) :
  split_from (String c "") (a ++ String c b) 0
  = (split_from (String c "") a 0 ++ split_from (String c "") b 0)%list.
Proof.
  induction a as [|d a IH].
  - exact (split_from_at_sep c "" b).
  - change (String d a ++ String c b) with (String d (a ++ String c b)).
    cbn [split_from].
    change (String.length (String c "") - 1) with 0.
    rewrite (prefix_char c d (a ++ String c b) a), IH.
    destruct (prefix (String c "") (String d a)); [reflexivity|].
    now destruct (split_from_inhabited (String c "") a 0) as (p & ps & ->).
Qed.

Lemma last_app_cons {A : Type} (l : list A) (x : A) (r : list A) (d : A) :
  last (l ++ x :: r)%list d = last (x :: r) d.
Proof.
  induction l as [|y l IH]; [reflexivity|].
  change ((y :: l) ++ x :: r)%list with (y :: (l ++ x :: r))%list.
  destruct l; exact IH.
Qed.

(** The last piece is the text after the last occurrence. *)
Lemma last_split_char (c : ascii) (a b : string) :
  includes (String c "") b = false ->
  last (split (String c "") (a ++ String c "" ++ b)) "" = b.
Proof.
  intros H. unfold split. change (String c "" ++ b) with (String c b). rewrite split_from_char_app, (split_from_whole _ _ H).
  now rewrite last_app_cons.
Qed.

(** *** The separator ["at "] *)

Lemma prefix_cons (a b : ascii) (s1 s2 : string) :
  prefix (String a s1) (String b s2)
  = if ascii_dec a b then prefix s1 s2 else false.
Proof. reflexivity. Qed.

Lemma prefix_empty_l (s : string) : prefix "" s = true.
Proof. now destruct s. Qed.

Lemma prefix_empty_r (a : ascii) (s : string) : prefix (String a s) "" = false.
Proof. reflexivity. Qed.

(** A line break after [f] cannot complete a match that starts in [f]. *)
Lemma prefix_at_before_LF (f t : string) :
  prefix "at " f = false -> prefix "at " (f ++ String "010" t) = false.
Proof.
  intros H.
  destruct f as [|c1 [|c2 [|c3 f]]]; cbn [append] in *;
    repeat (rewrite ?prefix_cons, ?prefix_empty_l, ?prefix_empty_r in *;
            match goal with
            | |- context [ascii_dec ?a ?b] => destruct (ascii_dec a b) as [?|?]
            | H : context [ascii_dec ?a ?b] |- _ => destruct (ascii_dec a b) as [?|?]
            end);
    congruence.
Qed.

Lemma unmatched_at_before_LF (f t : string) :
  includes "at " f = false -> unmatched "at " f (String "010" t) = true.
Proof.
  induction f as [|c f IH]; intros H; [reflexivity|].
  apply includes_cons in H as [H1 H2].
  cbn [unmatched]. now rewrite (IH H2), (prefix_at_before_LF _ _ H1).
Qed.

(** ** Arrays *)

Lemma at_index_last_cons {A : Type} (x : A) (l : list A) (d : A) :
  at_index (x :: l) (List.length l) = defined (last (x :: l) d).
Proof.
  revert x; induction l as [|y l IH]; intros x; [reflexivity|].
  exact (IH y).
Qed.

Lemma at_index_last {A : Type} (l : list A) (d : A) :
  l <> [] -> at_index l (List.length l - 1) = defined (last l d).
Proof.
  destruct l as [|x l]; [congruence | intros _].
  cbn [List.length Nat.sub]. rewrite Nat.sub_0_r. apply at_index_last_cons.
Qed.

Lemma at_index_short {A : Type} (l : list A) (i : nat) :
  at_index l i = undefined <-> List.length l <= i.
Proof.
  unfold at_index. rewrite <- nth_error_None.
  destruct (nth_error l i); split; congruence.
Qed.

Lemma at_index_defined {A : Type} (l : list A) (i : nat) :
  i < List.length l -> exists x, at_index l i = defined x.
Proof.
  intros H. destruct (at_index l i) eqn:E; [|now eexists].
  apply at_index_short in E. lia.
Qed.

(** ** The pieces of a V8 stack *)

Lemma unmatched_frame_line (f rest : string) :
  includes "at " f = false ->
  unmatched "at " (f ++ indent) ("at " ++ rest) = true.
Proof.
  intros H. rewrite unmatched_app. apply andb_true_intro; split.
  - exact (unmatched_at_before_LF f _ H).
  - reflexivity.
Qed.

Lemma split_v8_two_frames (f0 f1 : string) (more : list string) :
  includes "at " f0 = false ->
  split "at " (v8_stack (f0 :: f1 :: more))
  = ("Error" ++ indent) :: (f0 ++ indent)
      :: split "at " (f1 ++ v8_frame_lines more).
Proof.
  intros H0. unfold v8_stack, split. cbn [v8_frame_lines].
  rewrite <- (append_assoc "Error" indent).
  rewrite (split_from_app "a" "t " ("Error" ++ indent)) by reflexivity.
  rewrite <- (append_assoc f0 indent).
  now rewrite (split_from_app "a" "t " (f0 ++ indent)) by now apply unmatched_frame_line.
Qed.

(** In a V8 stack, [split('at ')[2]] is the text of frame 1. *)
Lemma errorLine_v8 (f0 f1 : string) (more : list string) :
  includes "at " f0 = false ->
  includes "at " f1 = false ->
  at_index (split "at " (v8_stack (f0 :: f1 :: more))) 2
  = defined (f1 ++ line_end more).
Proof.
  intros H0 H1. rewrite (split_v8_two_frames _ _ _ H0).
  unfold split.
  destruct (split_from_head "at " (f1 ++ v8_frame_lines more)) as (ps & ->).
  unfold at_index. cbn [nth_error]. f_equal.
  destruct more as [|f2 more]; cbn [v8_frame_lines line_end].
  - rewrite append_empty_r. now apply before_first_whole.
  - rewrite <- (append_assoc f1 indent).
    now apply (before_first_app "a" "t "), unmatched_frame_line.
Qed.

Lemma split_v8_no_frame : split "at " (v8_stack []) = ["Error"].
Proof. reflexivity. Qed.

Lemma split_v8_one_frame (f0 : string) :
  includes "at " f0 = false ->
  split "at " (v8_stack [f0]) = ["Error" ++ indent; f0].
Proof.
  intros H0. unfold v8_stack, split. cbn [v8_frame_lines].
  rewrite <- (append_assoc "Error" indent), append_empty_r.
  rewrite (split_from_app "a" "t " ("Error" ++ indent)) by reflexivity.
  now rewrite (split_from_whole _ _ H0).
Qed.

(** ** The names read off a segment *)

Lemma hookName_of_token (name rest : string) :
  includes " " name = false ->
  hookName_of (name ++ " " ++ rest) = name.
Proof.
  intros H. apply (before_first_app " " ""). now apply unmatched_char.
Qed.

Lemma contextProviderName_of_basename (before base after : string) :
  includes "/" base = false ->
  includes "." base = false ->
  includes "/" after = false ->
  contextProviderName_of (before ++ "/" ++ base ++ "." ++ after) = base.
Proof.
  intros Hb Hd Ha. unfold contextProviderName_of, last_path_piece.
  rewrite (last_split_char "/" before (base ++ "." ++ after)).
  - apply (before_first_app "." ""). now apply unmatched_char.
  - clear Hd. induction base as [|c base IH]; [exact Ha|].
    apply includes_cons in Hb as [Hb1 Hb2].
    change (String c base ++ "." ++ after) with (String c (base ++ "." ++ after)).
    cbn [includes]. rewrite (IH Hb2), orb_false_r.
    now rewrite (prefix_char "/" c _ base).
Qed.

(** ** The hook, branch by branch *)

Section Branches.

Context {Context T Providers : Type}.
Variables (m : Module Context T Providers) (call : Call Providers) (context : Context).

Lemma read_defined (v : T) :
  useHook m (providers call) context = defined v ->
  useSafeContext m call context = Normal v.
Proof.
  intros H. unfold useSafeContext. now rewrite H.
Qed.

Lemma failing_without_stack :
  useHook m (providers call) context = undefined ->
  new_Error_stack call = undefined ->
  useSafeContext m call context = Throw (TypeError_undefined "split").
Proof.
  intros H Hs. unfold useSafeContext. now rewrite H, Hs.
Qed.

Lemma failing_without_line (stack : string) :
  useHook m (providers call) context = undefined ->
  new_Error_stack call = defined stack ->
  at_index (split "at " stack) 2 = undefined ->
  useSafeContext m call context = Throw (TypeError_undefined "split").
Proof.
  intros H Hs Hl. unfold useSafeContext. rewrite H, Hs.
  cbn [call_split bind]. now rewrite Hl.
Qed.

Lemma failing_with_line (stack errorLine : string) :
  useHook m (providers call) context = undefined ->
  new_Error_stack call = defined stack ->
  at_index (split "at " stack) 2 = defined errorLine ->
  useSafeContext m call context
  = Throw (Error (message (hookName_of errorLine) (contextProviderName_of errorLine))).
Proof.
  intros H Hs Hl. unfold useSafeContext. rewrite H, Hs.
  cbn [call_split bind]. rewrite Hl. cbn [call_split bind].
  rewrite (at_index_last (split "/" errorLine) "").
  2:{ destruct (split_inhabited "/" errorLine) as (p & ps & ->); discriminate. }
  cbn [call_split bind].
  unfold message, hookName_of, contextProviderName_of, last_path_piece.
  change (split " " errorLine) with (split_from " " errorLine 0).
  change (split "." (last (split "/" errorLine) ""))
    with (split_from "." (last (split "/" errorLine) "") 0).
  destruct (split_from_head " " errorLine) as (ws & ->).
  destruct (split_from_head "." (last (split "/" errorLine) "")) as (ds & ->).
  reflexivity.
Qed.

Lemma has_error_line_defined :
  has_error_line (new_Error_stack call) = true ->
  exists stack errorLine,
    new_Error_stack call = defined stack
    /\ at_index (split "at " stack) 2 = defined errorLine.
Proof.
  unfold has_error_line. destruct (new_Error_stack call) as [|stack]; [discriminate|].
  intros H. apply Nat.leb_le in H.
  destruct (at_index_defined (split "at " stack) 2 H) as (l & Hl).
  now exists stack, l.
Qed.

Lemma has_no_error_line :
  has_error_line (new_Error_stack call) = false ->
  useHook m (providers call) context = undefined ->
  useSafeContext m call context = Throw (TypeError_undefined "split").
Proof.
  unfold has_error_line. destruct (new_Error_stack call) as [|stack] eqn:Hs; intros H Hr.
  - now apply failing_without_stack.
  - apply Nat.leb_gt in H. apply (failing_without_line stack); trivial.
    apply at_index_short. lia.
Qed.

End Branches.

Lemma includes_char_app (c : ascii) (a b : string) :
  includes (String c "") (a ++ b)
  = includes (String c "") a || includes (String c "") b.
Proof.
  induction a as [|d a IH].
  - cbn [append includes]. now rewrite prefix_empty_r.
  - change (String d a ++ b) with (String d (a ++ b)).
    cbn [includes]. now rewrite IH, (prefix_char c d (a ++ b) a), orb_assoc.
Qed.

(** The outcome is a function of the value read and of the stack. *)
Lemma useSafeContext_ext {Context T Providers : Type}
    (m1 m2 : Module Context T Providers) (call : Call Providers) (context : Context) :
  useHook m1 (providers call) context = useHook m2 (providers call) context ->
  useSafeContext m1 call context = useSafeContext m2 call context.
Proof.
  intros H. unfold useSafeContext. now rewrite H.
Qed.

(** In a V8 stack whose first two frames hold no ["at "], the hook name of
    the message is the function-name token of frame 1. *)
Lemma hook_name_from_hook_frame {Context T Providers : Type}
    (m : Module Context T Providers) (call : Call Providers) (context : Context)
    (f0 name rest : string) (more : list string) :
  useHook m (providers call) context = undefined ->
  new_Error_stack call = defined (v8_stack (f0 :: (name ++ " " ++ rest) :: more)) ->
  includes "at " f0 = false ->
  includes "at " (name ++ " " ++ rest) = false ->
  includes " " name = false ->
  exists contextProviderName,
    useSafeContext m call context = Throw (Error (message name contextProviderName)).
Proof.
  intros Hr Hs H0 H1 Hn.
  rewrite (failing_with_line m call context _ _ Hr Hs (errorLine_v8 f0 _ more H0 H1)).
  rewrite !append_assoc, (hookName_of_token name _ Hn).
  now eexists.
Qed.

(** A V8 stack of fewer than two frames gives fewer than three pieces. *)
Lemma v8_short_stack_pieces (frames : list string) :
  List.length frames < 2 ->
  Forall (fun frame => includes "at " frame = false) frames ->
  List.length (split "at " (v8_stack frames)) < 3.
Proof.
  destruct frames as [|f0 [|f1 frames]]; cbn [List.length]; intros Hn Hc.
  - rewrite split_v8_no_frame. cbn [List.length]. lia.
  - rewrite split_v8_one_frame by now inversion Hc. cbn [List.length]. lia.
  - lia.
Qed.

(** * The hook *)

(** ** Reading inside a provider *)

(** C2. When the underlying read yields a value [v] other than [undefined],
    the hook returns [v] itself, whatever the stack is. *)
Theorem useSafeContext_returns_value {Context T Providers : Type}
    (m : Module Context T Providers) (call : Call Providers) (context : Context) (v : T) :
  useHook m (providers call) context = defined v ->
  useSafeContext m call context = Normal v.
Proof.
  apply read_defined.
Qed.

Lemma useSafeContext_returns_value_witness :
  useSafeContext (load (Sample.provided 7)) (Sample.call undefined) tt = Normal 7.
Proof.
  apply (useSafeContext_returns_value (load (Sample.provided 7)) (Sample.call undefined) tt 7).
  reflexivity.
Defined.

(** C10. With the enclosing providers fixed and the read yielding the same
    defined value, every one of a series of calls returns that value: the
    hook keeps nothing from one call to the next. *)
Theorem renders_same_value {Context T Providers : Type}
    (m : Module Context T Providers) (st : Providers) (context : Context) (v : T)
    (stacks : list (or_undefined string)) :
  useHook m st context = defined v ->
  renders m st context stacks = repeat (Normal v) (List.length stacks).
Proof.
  intros H. unfold renders.
  induction stacks as [|stk stacks IH]; [reflexivity|].
  cbn [map List.length repeat]. rewrite IH. f_equal.
  now apply read_defined.
Qed.

Lemma renders_same_value_witness :
  renders (load (Sample.provided 7)) tt tt [undefined; defined "Error"; undefined]
  = [Normal 7; Normal 7; Normal 7].
Proof.
  apply (renders_same_value (load (Sample.provided 7)) tt tt 7
           [undefined; defined "Error"; undefined]).
  reflexivity.
Defined.

(** C9. [useHook] is fixed when the module is loaded, as [use ?? useContext];
    and when the two read primitives yield the same value for the enclosing
    providers, the hook loaded with [use] and the hook loaded without it end
    the same way, with the same value or the same exception. *)
Theorem read_strategy_transparent {Context T Providers : Type}
    (u uc : read_primitive Context T Providers)
    (call : Call Providers) (context : Context) :
  u (providers call) context = uc (providers call) context ->
  (forall react : React Context T Providers,
      useHook (load react) = nullish (use react) (useContext react))
  /\ useHook (load {| use := defined u; useContext := uc |}) = u
  /\ useHook (load {| use := undefined; useContext := uc |}) = uc
  /\ useSafeContext (load {| use := defined u; useContext := uc |}) call context
     = useSafeContext (load {| use := undefined; useContext := uc |}) call context.
Proof.
  intros H. repeat split. now apply useSafeContext_ext.
Qed.

Lemma read_strategy_transparent_witness :
  useSafeContext
    (load {| use := defined (fun (_ : unit) (inside : bool) =>
                               if inside then defined 7 else undefined);
             useContext := fun _ _ => defined 7 |})
    (Sample.call undefined) true
  = useSafeContext
      (load {| use := undefined; useContext := fun _ _ => defined 7 |})
      (Sample.call undefined) true.
Proof.
  apply (read_strategy_transparent
           (fun (_ : unit) (inside : bool) => if inside then defined 7 else undefined)
           (fun _ _ => defined 7)
           (Sample.call undefined) true).
  reflexivity.
Defined.

(** ** Reading outside a provider *)

(** C1, as the code has it. The hook returns normally exactly on a defined
    value. On [undefined] it always throws: its own [Error] when the stack is
    there and [split('at ')] gives it at least three pieces, with the message
    "<hookName> must be used within <contextProviderName>", both names read
    off the piece at index 2; and the runtime's [TypeError] otherwise. *)
Theorem useSafeContext_raises_iff {Context T Providers : Type}
    (m : Module Context T Providers) (call : Call Providers) (context : Context) :
  (is_hook_error (useSafeContext m call context) = true
   <-> useHook m (providers call) context = undefined
       /\ has_error_line (new_Error_stack call) = true)
  /\ (forall msg, useSafeContext m call context = Throw (Error msg) ->
        exists stack errorLine,
          new_Error_stack call = defined stack
          /\ at_index (split "at " stack) 2 = defined errorLine
          /\ msg = hookName_of errorLine ++ " must be used within "
                     ++ contextProviderName_of errorLine)
  /\ (forall v, useHook m (providers call) context = defined v <->
                useSafeContext m call context = Normal v)
  /\ (useHook m (providers call) context = undefined ->
      has_error_line (new_Error_stack call) = false ->
      useSafeContext m call context = Throw (TypeError_undefined "split")).
Proof.
  destruct (useHook m (providers call) context) as [|v] eqn:Hr.
  - destruct (has_error_line (new_Error_stack call)) eqn:Hl.
    + destruct (has_error_line_defined call Hl) as (stack & errorLine & Hs & He).
      rewrite (failing_with_line m call context stack errorLine Hr Hs He).
      split; [|split; [|split]].
      * now split.
      * intros msg E. injection E as <-. now exists stack, errorLine.
      * intros v; split; discriminate.
      * discriminate.
    + rewrite (has_no_error_line m call context Hl Hr).
      split; [|split; [|split]].
      * split; [discriminate | now intros [_ ?]].
      * discriminate.
      * intros v; split; discriminate.
      * reflexivity.
  - rewrite (read_defined m call context v Hr).
    split; [|split; [|split]].
    + split; [discriminate | now intros [? _]].
    + discriminate.
    + intros w; split; congruence.
    + discriminate.
Qed.

(** C1, as stated, fails on the stack of a browser that does not write
    ["at "]: the read yields [undefined] and the exception is the runtime's
    [TypeError], not the hook's own. *)
Lemma firefox_stack_raises_TypeError :
  useHook (load Sample.no_provider) tt tt = undefined
  /\ Sample.outside (defined (at_sign_stack Sample.firefox_frames))
     = Throw (TypeError_undefined "split")
  /\ is_hook_error (Sample.outside (defined (at_sign_stack Sample.firefox_frames))) = false.
Proof.
  repeat split.
Qed.

(** C6, as the code has it. Whenever the failing branch finds a piece at
    index 2 of [stack.split('at ')], a split on the substring and not on
    lines, the hook name and the provider name of the message are both read
    off that one piece; and in a V8 stack with no ["at "] inside frame 0 and
    frame 1 that piece is the text of frame 1, the consumer hook's own frame,
    followed by its line end when further frames follow, whatever those
    frames are. *)
Theorem names_from_one_segment {Context T Providers : Type}
    (m : Module Context T Providers) (call : Call Providers) (context : Context)
    (stack errorLine : string) :
  useHook m (providers call) context = undefined ->
  new_Error_stack call = defined stack ->
  at_index (split "at " stack) 2 = defined errorLine ->
  useSafeContext m call context
  = Throw (Error (message (before_first " " errorLine)
                          (before_first "." (last (split "/" errorLine) ""))))
  /\ (forall (f0 f1 : string) (more : list string),
         stack = v8_stack (f0 :: f1 :: more) ->
         includes "at " f0 = false ->
         includes "at " f1 = false ->
         errorLine = f1 ++ line_end more).
Proof.
  intros Hr Hs He. split.
  - exact (failing_with_line m call context stack errorLine Hr Hs He).
  - intros f0 f1 more -> H0 H1.
    rewrite (errorLine_v8 f0 f1 more H0 H1) in He. congruence.
Qed.

Lemma names_from_one_segment_witness :
  Sample.outside (defined (v8_stack Sample.readme_frames))
  = Throw (Error (message
      (before_first " " ("useCounter (http://localhost:5173/src/ContextProvider.tsx:8:33)" ++ indent))
      (before_first "." (last (split "/"
         ("useCounter (http://localhost:5173/src/ContextProvider.tsx:8:33)" ++ indent)) "")))).
Proof.
  apply (names_from_one_segment (load Sample.no_provider)
           (Sample.call (defined (v8_stack Sample.readme_frames))) tt
           (v8_stack Sample.readme_frames)
           ("useCounter (http://localhost:5173/src/ContextProvider.tsx:8:33)" ++ indent));
    reflexivity.
Defined.

(** C6, as stated, fails where an ["at "] sits inside a frame. On the stack
    of [useChat] the piece at index 2 is "useCh" and so is the provider name,
    where the file of the hook's own frame is "ChatProvider". Under a
    directory "my cat pics" the piece at index 2 is the end of the reader's
    frame, and the provider name is "index", the reader's file, where the
    file of the hook's own frame is "ContextProvider". *)
Lemma names_not_from_hook_frame :
  at_index (split "at " (v8_stack Sample.chat_frames)) 2 = defined "useCh"
  /\ Sample.outside (defined (v8_stack Sample.chat_frames))
     = Throw (Error (message "useCh" "useCh"))
  /\ Spec.expectedProviderName (nth 1 Sample.chat_frames "") = "ChatProvider"
  /\ at_index (split "at " (v8_stack Sample.cat_frames)) 2
     = defined ("pics/node_modules/use-safe-context/dist/index.js:11:138)" ++ indent)
  /\ Sample.outside (defined (v8_stack Sample.cat_frames))
     = Throw (Error (message
         ("pics/node_modules/use-safe-context/dist/index.js:11:138)" ++ LF) "index"))
  /\ Spec.expectedProviderName (nth 1 Sample.cat_frames "") = "ContextProvider".
Proof.
  repeat split.
Qed.

(** C3, as the code has it. In a V8 stack of the three-frame shape, with no
    ["at "] inside frame 0 and frame 1, whose frame 1 reads
    [before/base.after] with no ['/'] in [base] and [after] and no ['.'] in
    [base], the provider name is [base]: the last path segment of frame 1,
    the consumer hook's own frame, up to its first ['.'], whatever frame 2
    is. *)
Theorem provider_name_from_hook_frame {Context T Providers : Type}
    (m : Module Context T Providers) (call : Call Providers) (context : Context)
    (f0 f1 f2 : string) (more : list string) (before base after : string) :
  useHook m (providers call) context = undefined ->
  new_Error_stack call = defined (v8_stack (f0 :: f1 :: f2 :: more)) ->
  includes "at " f0 = false ->
  includes "at " f1 = false ->
  f1 = before ++ "/" ++ base ++ "." ++ after ->
  includes "/" base = false ->
  includes "." base = false ->
  includes "/" after = false ->
  useSafeContext m call context
  = Throw (Error (message (hookName_of (f1 ++ indent)) base)).
Proof.
  intros Hr Hs H0 H1 Hf Hb Hd Ha.
  rewrite (failing_with_line m call context _ (f1 ++ indent) Hr Hs)
    by exact (errorLine_v8 f0 f1 (f2 :: more) H0 H1).
  do 3 f_equal. rewrite Hf at 1.
  rewrite !append_assoc.
  apply contextProviderName_of_basename; trivial.
  now rewrite includes_char_app, Ha.
Qed.

Lemma provider_name_from_hook_frame_witness :
  Sample.outside (defined (v8_stack Sample.readme_frames))
  = Throw (Error (message
      (hookName_of ("useCounter (http://localhost:5173/src/ContextProvider.tsx:8:33)" ++ indent))
      "ContextProvider")).
Proof.
  apply (provider_name_from_hook_frame (load Sample.no_provider)
           (Sample.call (defined (v8_stack Sample.readme_frames))) tt
           "useSafeContext (http://localhost:5173/node_modules/.vite/deps/use-safe-context.js?v=766d6ed6:11:138)"
           "useCounter (http://localhost:5173/src/ContextProvider.tsx:8:33)"
           "ConsumerComponent (http://localhost:5173/src/ConsumerComponent.tsx:4:21)"
           []
           "useCounter (http://localhost:5173/src" "ContextProvider" "tsx:8:33)");
    reflexivity.
Defined.

(** C3, as stated, fails on the stack of the README: the derivation of the
    specification applied to frame 2 gives "ConsumerComponent", and the hook
    names "ContextProvider", the file of frame 1. *)
Lemma provider_name_not_from_frame2 :
  Sample.outside (defined (v8_stack Sample.readme_frames))
  = Throw (Error (message "useCounter" "ContextProvider"))
  /\ Spec.expectedProviderName (nth 2 Sample.readme_frames "") = "ConsumerComponent"
  /\ Sample.outside (defined (v8_stack Sample.readme_frames))
     <> Throw (Error (message "useCounter"
                        (Spec.expectedProviderName (nth 2 Sample.readme_frames "")))).
Proof.
  repeat split. vm_compute. discriminate.
Qed.

(** C4 at a consumer hook named [useChat]: the function-name token of frame 1
    is "useChat", but the ["at "] inside "useChat (" ends the piece at index 2
    early, and the hook names "useCh" twice. *)
Theorem hook_name_cut_at_inner_at :
  Spec.consumerHookName (nth 1 Sample.chat_frames "") = "useChat"
  /\ at_index (split "at " (v8_stack Sample.chat_frames)) 2 = defined "useCh"
  /\ Sample.outside (defined (v8_stack Sample.chat_frames))
     = Throw (Error "useCh must be used within useCh").
Proof.
  repeat split.
Qed.

(** C5 at the stack of the example: frame 1 holds no ['/'], so the last
    path piece is the whole segment and the provider name keeps the text
    before the file name. *)
Theorem synthetic_stack_message :
  at_index (split "at " (v8_stack Sample.synthetic_frames)) 2
  = defined ("useCounter (ContextProvider.tsx:8:33)" ++ indent)
  /\ Sample.outside (defined (v8_stack Sample.synthetic_frames))
     = Throw (Error "useCounter must be used within useCounter (ContextProvider")
  /\ Sample.outside (defined (v8_stack Sample.synthetic_frames))
     <> Throw (Error "useCounter must be used within ContextProvider").
Proof.
  repeat split. vm_compute. discriminate.
Qed.

(** ** Stacks that do not hold the segment *)

(** C7, as the code has it. When [split('at ')] gives fewer than three
    pieces, the failing branch throws the runtime's [TypeError] for calling
    [split] on [undefined]; it builds no message. *)
Theorem short_stack_raises_TypeError {Context T Providers : Type}
    (m : Module Context T Providers) (call : Call Providers) (context : Context)
    (stack : string) :
  useHook m (providers call) context = undefined ->
  new_Error_stack call = defined stack ->
  List.length (split "at " stack) < 3 ->
  useSafeContext m call context = Throw (TypeError_undefined "split").
Proof.
  intros Hr Hs Hl. apply (failing_without_line m call context stack Hr Hs).
  apply at_index_short. lia.
Qed.

Lemma short_stack_raises_TypeError_witness :
  Sample.outside (defined (v8_stack (firstn 1 Sample.readme_frames)))
  = Throw (TypeError_undefined "split").
Proof.
  apply (short_stack_raises_TypeError (load Sample.no_provider)
           (Sample.call (defined (v8_stack (firstn 1 Sample.readme_frames)))) tt
           (v8_stack (firstn 1 Sample.readme_frames)));
    [reflexivity | reflexivity | vm_compute; lia].
Defined.

(** C7, as stated, fails on a V8 stack cut after its first frame: the
    exception is the runtime's [TypeError]. With two frames the hook throws
    its usual [Error]. *)
Lemma one_frame_stack_raises_TypeError :
  Sample.outside (defined (v8_stack (firstn 1 Sample.readme_frames)))
  = Throw (TypeError_undefined "split")
  /\ Sample.outside (defined (v8_stack (firstn 2 Sample.readme_frames)))
     = Throw (Error "useCounter must be used within ContextProvider").
Proof.
  split; reflexivity.
Qed.

(** C8, as the code has it. When the [Error] object has no [stack], the
    failing branch calls [split] on [undefined] and the runtime throws its
    [TypeError]: nothing guards the dereference. *)
Theorem absent_stack_raises_TypeError {Context T Providers : Type}
    (m : Module Context T Providers) (call : Call Providers) (context : Context) :
  useHook m (providers call) context = undefined ->
  new_Error_stack call = undefined ->
  useSafeContext m call context = Throw (TypeError_undefined "split").
Proof.
  apply failing_without_stack.
Qed.

Lemma absent_stack_raises_TypeError_witness :
  useSafeContext (load Sample.no_provider) (Sample.call undefined) tt
  = Throw (TypeError_undefined "split").
Proof.
  apply (absent_stack_raises_TypeError (load Sample.no_provider) (Sample.call undefined) tt);
    reflexivity.
Defined.

(** C8, as stated, fails on a call made where no stack is recorded: the
    exception is the [TypeError] of the dereference itself. *)
Lemma no_stack_raises_TypeError :
  new_Error_stack (Sample.call undefined) = undefined
  /\ Sample.outside undefined = Throw (TypeError_undefined "split").
Proof.
  split; reflexivity.
Qed.

(** * Further properties of the hook and of the operations it calls *)

(** ** [split] keeps the text *)

Lemma prefix_mono (a x y : string) :
  prefix a x = true -> prefix a (x ++ y) = true.
Proof.
  revert x; induction a as [|c a IH]; intros x H; [apply prefix_empty_l|].
  destruct x as [|d x]; [discriminate|].
  change (String d x ++ y) with (String d (x ++ y)).
  rewrite prefix_cons in *. destruct (ascii_dec c d); [now apply IH | discriminate].
Qed.

Lemma prefix_split (a s : string) :
  prefix a s = true -> exists r, s = a ++ r.
Proof.
  revert s; induction a as [|c a IH]; intros s H; [now exists s|].
  destruct s as [|d s]; [discriminate|].
  rewrite prefix_cons in H. destruct (ascii_dec c d) as [<-|]; [|discriminate].
  destruct (IH s H) as (r & ->). now exists r.
Qed.

Lemma before_first_is_prefix (sep s : string) :
  exists r, s = before_first sep s ++ r.
Proof.
  induction s as [|c s (r & IH)]; [now exists ""|].
  cbn [before_first]. destruct (prefix sep (String c s)).
  - now eexists.
  - exists r. cbn [append]. now rewrite <- IH.
Qed.

Lemma concat_cons_inhabited (sep p q : string) (l : list string) :
  String.concat sep (p :: q :: l) = p ++ sep ++ String.concat sep (q :: l).
Proof. reflexivity. Qed.

Lemma concat_cons_char (sep : string) (c : ascii) (p : string) (l : list string) :
  String.concat sep (String c p :: l) = String c (String.concat sep (p :: l)).
Proof. now destruct l. Qed.

(** Joining what [split_from] gives with the separator restores what was
    scanned: all of [s] but the [skip] characters that were passed over. *)
Lemma concat_split_from (c : ascii) (x s pre r : string) :
  s = pre ++ r ->
  String.concat (String c x) (split_from (String c x) s (String.length pre)) = r.
Proof.
  set (sep := String c x).
  revert pre r; induction s as [|d s IH]; intros pre r E.
  - destruct pre; [|discriminate]. now destruct r.
  - destruct pre as [|e pre].
    + cbn [append] in E. subst r. cbn [String.length split_from].
      destruct (prefix sep (String d s)) eqn:Hp.
      * apply prefix_split in Hp as (r & Hr). injection Hr as <- ->.
        destruct (split_from_inhabited sep (x ++ r) (String.length sep - 1))
          as (q & l & El).
        rewrite El, concat_cons_inhabited, <- El.
        change (String.length sep - 1) with (String.length x - 0).
        rewrite Nat.sub_0_r, (IH x r eq_refl). reflexivity.
      * destruct (split_from_inhabited sep s 0) as (q & l & El).
        rewrite El, concat_cons_char, <- El.
        f_equal. exact (IH "" s eq_refl).
    + injection E as <- ->. cbn [String.length split_from]. now apply IH.
Qed.

(** X1. Splitting loses no text: for a separator that is not empty, joining
    the pieces of [s.split(sep)] with [sep] gives [s] back. *)
Theorem concat_split (sep s : string) :
  sep <> "" -> String.concat sep (split sep s) = s.
Proof.
  destruct sep as [|c x]; [congruence | intros _].
  exact (concat_split_from c x s "" s eq_refl).
Qed.

Lemma concat_split_witness :
  String.concat "at " (split "at " (v8_stack Sample.chat_frames))
  = v8_stack Sample.chat_frames.
Proof.
  apply (concat_split "at " (v8_stack Sample.chat_frames)). discriminate.
Defined.

(** ** No piece holds the separator *)

Lemma includes_empty (c : ascii) (x : string) : includes (String c x) "" = false.
Proof. reflexivity. Qed.

Lemma includes_app_l (sep a b : string) :
  includes sep a = true -> includes sep (a ++ b) = true.
Proof.
  induction a as [|c a IH]; intros H.
  - cbn [includes] in H. rewrite orb_false_r in H.
    destruct sep; [|discriminate]. destruct b; reflexivity.
  - change (String c a ++ b) with (String c (a ++ b)).
    cbn [includes] in *. apply orb_true_iff in H as [H|H]; apply orb_true_iff.
    + left. exact (prefix_mono sep (String c a) b H).
    + right. now apply IH.
Qed.

Lemma before_first_free (c : ascii) (x s : string) :
  includes (String c x) (before_first (String c x) s) = false.
Proof.
  set (sep := String c x).
  induction s as [|d s IH]; [reflexivity|].
  cbn [before_first]. destruct (prefix sep (String d s)) eqn:Hp; [reflexivity|].
  cbn [includes]. rewrite IH, orb_false_r.
  destruct (prefix sep (String d (before_first sep s))) eqn:Hq; [|reflexivity].
  destruct (before_first_is_prefix sep s) as (r & Hr).
  apply (prefix_mono _ _ r) in Hq. cbn [append] in Hq.
  rewrite <- Hr in Hq. congruence.
Qed.

Lemma split_from_free (c : ascii) (x s : string) (skip : nat) :
  Forall (fun piece => includes (String c x) piece = false)
         (split_from (String c x) s skip).
Proof.
  set (sep := String c x).
  revert skip; induction s as [|d s IH]; intros skip.
  - now repeat constructor.
  - cbn [split_from]. destruct skip as [|k]; [|apply IH].
    destruct (prefix sep (String d s)) eqn:Hp.
    + constructor; [reflexivity | apply IH].
    + pose proof (IH 0) as Hf.
      destruct (split_from_head sep s) as (l & El). rewrite El in *.
      inversion Hf as [|? ? _ Hl]; subst. constructor; [|exact Hl].
      pose proof (before_first_free c x (String d s)) as Hb.
      cbn [before_first] in Hb. fold sep in Hb. now rewrite Hp in Hb.
Qed.

(** X2. For a separator that is not empty, no piece of [s.split(sep)]
    contains the separator. *)
Theorem split_pieces_free (sep s : string) :
  sep <> "" ->
  Forall (fun piece => includes sep piece = false) (split sep s).
Proof.
  destruct sep as [|c x]; [congruence | intros _].
  apply split_from_free.
Qed.

Lemma split_pieces_free_witness :
  Forall (fun piece => includes "at " piece = false)
         (split "at " (v8_stack Sample.chat_frames)).
Proof.
  apply (split_pieces_free "at " (v8_stack Sample.chat_frames)). discriminate.
Defined.

(** ** What the names of the message can hold *)

Lemma last_in_Forall {A : Type} (P : A -> Prop) (l : list A) (d : A) :
  Forall P l -> P d -> P (last l d).
Proof.
  intros Hl Hd. induction Hl as [|x l Hx Hl IH]; [exact Hd|].
  destruct l; [exact Hx | exact IH].
Qed.

Lemma hookName_of_free (errorLine : string) :
  includes " " (hookName_of errorLine) = false.
Proof. apply before_first_free. Qed.

Lemma last_path_piece_free (errorLine : string) :
  includes "/" (last_path_piece errorLine) = false.
Proof.
  unfold last_path_piece.
  apply (last_in_Forall (fun piece => includes "/" piece = false)); [|reflexivity].
  apply (split_from_free "/" "").
Qed.

Lemma contextProviderName_of_free (errorLine : string) :
  includes "." (contextProviderName_of errorLine) = false
  /\ includes "/" (contextProviderName_of errorLine) = false.
Proof.
  unfold contextProviderName_of. split; [apply before_first_free|].
  destruct (before_first_is_prefix "." (last_path_piece errorLine)) as (r & Hr).
  destruct (includes "/" (before_first "." (last_path_piece errorLine))) eqn:E;
    [|reflexivity].
  apply (includes_app_l _ _ r) in E. rewrite <- Hr in E.
  now rewrite last_path_piece_free in E.
Qed.

(** X3. Whenever the hook throws its own [Error], the message reads
    "<hookName> must be used within <contextProviderName>" with a hook name
    that holds no space and a provider name that holds neither ['.'] nor
    ['/']. *)
Theorem message_names_free {Context T Providers : Type}
    (m : Module Context T Providers) (call : Call Providers) (context : Context)
    (msg : string) :
  useSafeContext m call context = Throw (Error msg) ->
  exists hookName contextProviderName,
    msg = hookName ++ " must be used within " ++ contextProviderName
    /\ includes " " hookName = false
    /\ includes "." contextProviderName = false
    /\ includes "/" contextProviderName = false.
Proof.
  intros H.
  destruct (useHook m (providers call) context) as [|v] eqn:Hr.
  - destruct (has_error_line (new_Error_stack call)) eqn:Hl.
    + destruct (has_error_line_defined call Hl) as (stack & errorLine & Hs & He).
      rewrite (failing_with_line m call context stack errorLine Hr Hs He) in H.
      injection H as <-.
      exists (hookName_of errorLine), (contextProviderName_of errorLine).
      split; [reflexivity|]. split; [apply hookName_of_free|].
      apply contextProviderName_of_free.
    + rewrite (has_no_error_line m call context Hl Hr) in H. discriminate.
  - rewrite (read_defined m call context v Hr) in H. discriminate.
Qed.

Lemma message_names_free_witness :
  exists hookName contextProviderName,
    "useCounter must be used within ContextProvider"
    = hookName ++ " must be used within " ++ contextProviderName
    /\ includes " " hookName = false
    /\ includes "." contextProviderName = false
    /\ includes "/" contextProviderName = false.
Proof.
  apply (message_names_free (load Sample.no_provider)
           (Sample.call (defined (v8_stack Sample.readme_frames))) tt
           "useCounter must be used within ContextProvider").
  reflexivity.
Defined.

(** ** Stacks in another format *)

(** X4. When the stack holds no ["at "] at all, as in the [name@location]
    format, a read that yields [undefined] ends in the runtime's
    [TypeError]: the hook's own message is never built. *)
Theorem stack_without_at_raises_TypeError {Context T Providers : Type}
    (m : Module Context T Providers) (call : Call Providers) (context : Context)
    (stack : string) :
  useHook m (providers call) context = undefined ->
  new_Error_stack call = defined stack ->
  includes "at " stack = false ->
  useSafeContext m call context = Throw (TypeError_undefined "split").
Proof.
  intros Hr Hs Hi. apply (failing_without_line m call context stack Hr Hs).
  unfold split. now rewrite (split_from_whole _ _ Hi).
Qed.

Lemma stack_without_at_raises_TypeError_witness :
  Sample.outside (defined (at_sign_stack Sample.firefox_frames))
  = Throw (TypeError_undefined "split").
Proof.
  apply (stack_without_at_raises_TypeError (load Sample.no_provider)
           (Sample.call (defined (at_sign_stack Sample.firefox_frames))) tt
           (at_sign_stack Sample.firefox_frames));
    reflexivity.
Defined.

(** X5. On a V8 stack whose frames hold no ["at "], a read that yields
    [undefined] ends in the hook's own [Error] exactly when the stack has at
    least two frames: the reader's and its caller's. *)
Theorem v8_stack_error_iff_two_frames {Context T Providers : Type}
    (m : Module Context T Providers) (call : Call Providers) (context : Context)
    (frames : list string) :
  useHook m (providers call) context = undefined ->
  new_Error_stack call = defined (v8_stack frames) ->
  Forall (fun frame => includes "at " frame = false) frames ->
  is_hook_error (useSafeContext m call context) = (2 <=? List.length frames)%nat.
Proof.
  intros Hr Hs Hc.
  destruct frames as [|f0 [|f1 more]].
  - rewrite (failing_without_line m call context _ Hr Hs); reflexivity.
  - rewrite (failing_without_line m call context _ Hr Hs); [reflexivity|].
    apply at_index_short. pose proof (v8_short_stack_pieces [f0]) as Hp.
    cbn [List.length] in Hp. specialize (Hp ltac:(lia) Hc). lia.
  - inversion Hc as [|? ? H0 Hc']; subst. inversion Hc' as [|? ? H1 _]; subst.
    now rewrite (failing_with_line m call context _ _ Hr Hs (errorLine_v8 f0 f1 more H0 H1)).
Qed.

Lemma v8_stack_error_iff_two_frames_witness :
  is_hook_error (Sample.outside (defined (v8_stack (firstn 2 Sample.readme_frames)))) = true
  /\ is_hook_error (Sample.outside (defined (v8_stack (firstn 1 Sample.readme_frames)))) = false.
Proof.
  split.
  - apply (v8_stack_error_iff_two_frames (load Sample.no_provider)
             (Sample.call (defined (v8_stack (firstn 2 Sample.readme_frames)))) tt
             (firstn 2 Sample.readme_frames));
      [reflexivity | reflexivity | repeat constructor].
  - apply (v8_stack_error_iff_two_frames (load Sample.no_provider)
             (Sample.call (defined (v8_stack (firstn 1 Sample.readme_frames)))) tt
             (firstn 1 Sample.readme_frames));
      [reflexivity | reflexivity | repeat constructor].
Defined.

(** ** Frames of other shapes *)

Lemma no_space_no_at (f : string) :
  includes " " f = false -> includes "at " f = false.
Proof.
  intros H. destruct (includes "at " f) eqn:E; [|reflexivity].
  assert (G : includes " " f = true); [|congruence].
  clear H. induction f as [|c f IH]; [discriminate|].
  cbn [includes] in E. apply orb_true_iff in E as [E|E].
  - apply prefix_split in E as (r & ->).
    cbn [append includes].
    apply orb_true_iff; right. apply orb_true_iff; right. apply orb_true_iff; left.
    rewrite prefix_cons, prefix_empty_l.
    destruct (ascii_dec " " " ") as [_|ne]; [reflexivity | now destruct ne].
  - cbn [includes]. rewrite (IH E). apply orb_true_r.
Qed.

Lemma before_first_skip (sep a tail : string) :
  unmatched sep a tail = true ->
  before_first sep (a ++ tail) = a ++ before_first sep tail.
Proof.
  induction a as [|c a IH]; intros H; [reflexivity|].
  cbn [unmatched] in H. apply andb_prop in H as [H1 H2].
  apply negb_true_iff in H1.
  change (String c a ++ tail) with (String c (a ++ tail)) in *.
  cbn [before_first]. now rewrite H1, (IH H2).
Qed.

Lemma includes_line_end (c : ascii) (more : list string) :
  includes (String c "") indent = false ->
  includes (String c "") (line_end more) = false.
Proof.
  now destruct more.
Qed.

(** A match of ["at "] that starts in [f] cannot end in an ['a'] put after
    it. *)
Lemma prefix_at_before_a (c1 : ascii) (f t : string) :
  prefix "at " (String c1 f) = false ->
  prefix "at " (String c1 f ++ String "a" t) = false.
Proof.
  intros H.
  destruct f as [|c2 [|c3 f]]; cbn [append] in *;
    repeat (rewrite ?prefix_cons, ?prefix_empty_l, ?prefix_empty_r in *;
            match goal with
            | |- context [ascii_dec ?a ?b] => destruct (ascii_dec a b) as [?|?]
            | H : context [ascii_dec ?a ?b] |- _ => destruct (ascii_dec a b) as [?|?]
            end);
    congruence.
Qed.

Lemma unmatched_at_before_a (f t : string) :
  includes "at " f = false -> unmatched "at " f (String "a" t) = true.
Proof.
  induction f as [|c f IH]; intros H; [reflexivity|].
  apply includes_cons in H as [H1 H2].
  cbn [unmatched]. now rewrite (IH H2), (prefix_at_before_a _ _ _ H1).
Qed.

(** X6. On a V8 stack of at least three frames, with no ["at "] inside
    frame 0, whose frame 1 holds no space (a bare location, with no function
    name), a read that yields [undefined] throws the hook's [Error] with, as
    hook name, frame 1 followed by the line break that ends its line, and,
    as provider name, what the code cuts from frame 1 and its line end. *)
Theorem anonymous_frame_hook_name {Context T Providers : Type}
    (m : Module Context T Providers) (call : Call Providers) (context : Context)
    (f0 f1 f2 : string) (more : list string) :
  useHook m (providers call) context = undefined ->
  new_Error_stack call = defined (v8_stack (f0 :: f1 :: f2 :: more)) ->
  includes "at " f0 = false ->
  includes " " f1 = false ->
  useSafeContext m call context
  = Throw (Error (message (f1 ++ LF) (contextProviderName_of (f1 ++ indent)))).
Proof.
  intros Hr Hs H0 H1.
  rewrite (failing_with_line m call context _ (f1 ++ indent) Hr Hs)
    by exact (errorLine_v8 f0 f1 (f2 :: more) H0 (no_space_no_at f1 H1)).
  do 3 f_equal.
  change indent with (LF ++ " " ++ "   "). rewrite <- append_assoc.
  apply hookName_of_token. now rewrite includes_char_app, H1.
Qed.

Lemma anonymous_frame_hook_name_witness :
  Sample.outside (defined (v8_stack
    [ "useSafeContext (http://localhost:5173/node_modules/.vite/deps/use-safe-context.js?v=766d6ed6:11:138)";
      "http://localhost:5173/src/ContextProvider.tsx:8:33";
      "ConsumerComponent (http://localhost:5173/src/ConsumerComponent.tsx:4:21)" ]))
  = Throw (Error (message ("http://localhost:5173/src/ContextProvider.tsx:8:33" ++ LF)
                          "ContextProvider")).
Proof.
  apply (anonymous_frame_hook_name (load Sample.no_provider)
           (Sample.call (defined (v8_stack
              [ "useSafeContext (http://localhost:5173/node_modules/.vite/deps/use-safe-context.js?v=766d6ed6:11:138)";
                "http://localhost:5173/src/ContextProvider.tsx:8:33";
                "ConsumerComponent (http://localhost:5173/src/ConsumerComponent.tsx:4:21)" ]))) tt
           "useSafeContext (http://localhost:5173/node_modules/.vite/deps/use-safe-context.js?v=766d6ed6:11:138)"
           "http://localhost:5173/src/ContextProvider.tsx:8:33"
           "ConsumerComponent (http://localhost:5173/src/ConsumerComponent.tsx:4:21)"
           []);
    reflexivity.
Defined.

(** X7. On a V8 stack with no ["at "] inside frame 0 and frame 1, whose
    frame 1 reads [name rest] with no space and no ['.'] in [name] and no
    ['/'] anywhere in the frame, a read that yields [undefined] throws the
    hook's [Error] with hook name [name] and, as provider name, [name], a
    space, and the text of [rest] and its line end up to the first ['.']:
    the provider name is cut from the whole segment. *)
Theorem frame_without_slash_repeats_hook_name {Context T Providers : Type}
    (m : Module Context T Providers) (call : Call Providers) (context : Context)
    (f0 name rest : string) (more : list string) :
  useHook m (providers call) context = undefined ->
  new_Error_stack call = defined (v8_stack (f0 :: (name ++ " " ++ rest) :: more)) ->
  includes "at " f0 = false ->
  includes "at " (name ++ " " ++ rest) = false ->
  includes " " name = false ->
  includes "." name = false ->
  includes "/" (name ++ " " ++ rest) = false ->
  useSafeContext m call context
  = Throw (Error (message name
                    (name ++ " " ++ before_first "." (rest ++ line_end more)))).
Proof.
  intros Hr Hs H0 H1 Hn Hd Hsl.
  rewrite (failing_with_line m call context _ _ Hr Hs (errorLine_v8 f0 _ more H0 H1)).
  rewrite !append_assoc, (hookName_of_token name _ Hn).
  do 3 f_equal. unfold contextProviderName_of, last_path_piece, split.
  rewrite split_from_whole.
  - cbn [last]. rewrite <- (append_assoc name " "), before_first_skip.
    + now rewrite append_assoc.
    + apply unmatched_char. now rewrite includes_char_app, Hd.
  - rewrite (includes_char_app "/" name), (includes_char_app "/" " " rest) in Hsl.
    rewrite (includes_char_app "/" name), (includes_char_app "/" " "),
      (includes_char_app "/" rest).
    apply orb_false_elim in Hsl as [Ha Hb]. apply orb_false_elim in Hb as [Hb Hc].
    rewrite Ha, Hb, Hc. now apply includes_line_end.
Qed.

Lemma frame_without_slash_repeats_hook_name_witness :
  Sample.outside (defined (v8_stack
    [ "useSafeContext (C:\app\node_modules\use-safe-context\dist\index.js:11:138)";
      "useCounter (C:\app\src\ContextProvider.js:8:33)";
      "ConsumerComponent (C:\app\src\ConsumerComponent.js:4:21)" ]))
  = Throw (Error (message "useCounter"
      ("useCounter" ++ " " ++ before_first "." ("(C:\app\src\ContextProvider.js:8:33)" ++ indent)))).
Proof.
  apply (frame_without_slash_repeats_hook_name (load Sample.no_provider)
           (Sample.call (defined (v8_stack
              [ "useSafeContext (C:\app\node_modules\use-safe-context\dist\index.js:11:138)";
                "useCounter (C:\app\src\ContextProvider.js:8:33)";
                "ConsumerComponent (C:\app\src\ConsumerComponent.js:4:21)" ]))) tt
           "useSafeContext (C:\app\node_modules\use-safe-context\dist\index.js:11:138)"
           "useCounter" "(C:\app\src\ContextProvider.js:8:33)"
           [ "ConsumerComponent (C:\app\src\ConsumerComponent.js:4:21)" ]);
    reflexivity.
Defined.

(** X8. The provider name depends only on what follows the last ['/'] of the
    segment: it is that text up to its first ['.'], whatever the directories
    and the host before it are. *)
Theorem provider_name_after_last_slash {Context T Providers : Type}
    (m : Module Context T Providers) (call : Call Providers) (context : Context)
    (stack before tail : string) :
  useHook m (providers call) context = undefined ->
  new_Error_stack call = defined stack ->
  at_index (split "at " stack) 2 = defined (before ++ "/" ++ tail) ->
  includes "/" tail = false ->
  useSafeContext m call context
  = Throw (Error (message (hookName_of (before ++ "/" ++ tail))
                          (before_first "." tail))).
Proof.
  intros Hr Hs He Ht.
  rewrite (failing_with_line m call context stack _ Hr Hs He).
  do 3 f_equal. unfold contextProviderName_of, last_path_piece.
  now rewrite (last_split_char "/" before tail Ht).
Qed.

Lemma provider_name_after_last_slash_witness :
  Sample.outside (defined (v8_stack Sample.readme_frames))
  = Throw (Error (message
      (hookName_of ("useCounter (http://localhost:5173/src" ++ "/"
                      ++ "ContextProvider.tsx:8:33)" ++ indent))
      (before_first "." ("ContextProvider.tsx:8:33)" ++ indent)))).
Proof.
  apply (provider_name_after_last_slash (load Sample.no_provider)
           (Sample.call (defined (v8_stack Sample.readme_frames))) tt
           (v8_stack Sample.readme_frames)
           "useCounter (http://localhost:5173/src"
           ("ContextProvider.tsx:8:33)" ++ indent));
    reflexivity.
Defined.

(** X9. An ["at "] inside frame 1 of a V8 stack ends the segment: the names
    of the message are read off the text of frame 1 before its first
    ["at "], and nothing after it enters the message. *)
Theorem inner_at_cuts_segment {Context T Providers : Type}
    (m : Module Context T Providers) (call : Call Providers) (context : Context)
    (f0 pre post : string) (more : list string) :
  useHook m (providers call) context = undefined ->
  new_Error_stack call = defined (v8_stack (f0 :: (pre ++ "at " ++ post) :: more)) ->
  includes "at " f0 = false ->
  includes "at " pre = false ->
  useSafeContext m call context
  = Throw (Error (message (hookName_of pre) (contextProviderName_of pre))).
Proof.
  intros Hr Hs H0 Hp.
  apply (failing_with_line m call context _ pre Hr Hs).
  rewrite (split_v8_two_frames _ _ _ H0). unfold split.
  destruct (split_from_head "at " ((pre ++ "at " ++ post) ++ v8_frame_lines more))
    as (ps & ->).
  unfold at_index. cbn [nth_error]. f_equal.
  rewrite !append_assoc.
  apply (before_first_app "a" "t "). exact (unmatched_at_before_a pre _ Hp).
Qed.

Lemma inner_at_cuts_segment_witness :
  Sample.outside (defined (v8_stack Sample.chat_frames))
  = Throw (Error (message (hookName_of "useCh") (contextProviderName_of "useCh"))).
Proof.
  apply (inner_at_cuts_segment (load Sample.no_provider)
           (Sample.call (defined (v8_stack Sample.chat_frames))) tt
           "useSafeContext (http://localhost:5173/node_modules/.vite/deps/use-safe-context.js?v=766d6ed6:11:138)"
           "useCh" "(http://localhost:5173/src/ChatProvider.tsx:8:33)"
           [ "ChatWindow (http://localhost:5173/src/ChatWindow.tsx:4:21)" ]);
    reflexivity.
Defined.

(** ** The message for a frame of the documented shape *)

(** X10. On a V8 stack whose frame 0 and frame 1 hold no ["at "], when frame 1
    reads [name (dir/base.after], with no space in [name], no ['/'] in
    [base] and [after] and no ['.'] in [base], a read that yields
    [undefined] throws the [Error] "<name> must be used within <base>",
    whether or not further frames follow. *)
Theorem message_of_documented_frame {Context T Providers : Type}
    (m : Module Context T Providers) (call : Call Providers) (context : Context)
    (f0 name dir base after : string) (more : list string) :
  useHook m (providers call) context = undefined ->
  new_Error_stack call
  = defined (v8_stack (f0 :: (name ++ " " ++ "(" ++ dir ++ "/" ++ base ++ "." ++ after) :: more)) ->
  includes "at " f0 = false ->
  includes "at " (name ++ " " ++ "(" ++ dir ++ "/" ++ base ++ "." ++ after) = false ->
  includes " " name = false ->
  includes "/" base = false ->
  includes "." base = false ->
  includes "/" after = false ->
  useSafeContext m call context = Throw (Error (message name base)).
Proof.
  intros Hr Hs H0 H1 Hn Hb Hd Ha.
  rewrite (failing_with_line m call context _ _ Hr Hs (errorLine_v8 f0 _ more H0 H1)).
  do 2 f_equal. unfold message. f_equal; [|f_equal].
  - rewrite append_assoc. now apply hookName_of_token.
  - rewrite <- (append_assoc name " "), <- (append_assoc (name ++ " ") "("),
      <- (append_assoc ((name ++ " ") ++ "(") dir).
    rewrite !(append_assoc _ _ (line_end more)).
    apply contextProviderName_of_basename; trivial.
    rewrite (includes_char_app "/" after), Ha. now apply includes_line_end.
Qed.

Lemma message_of_documented_frame_witness :
  Sample.outside (defined (v8_stack (firstn 2 Sample.readme_frames)))
  = Throw (Error (message "useCounter" "ContextProvider")).
Proof.
  apply (message_of_documented_frame (load Sample.no_provider)
           (Sample.call (defined (v8_stack (firstn 2 Sample.readme_frames)))) tt
           "useSafeContext (http://localhost:5173/node_modules/.vite/deps/use-safe-context.js?v=766d6ed6:11:138)"
           "useCounter" "http://localhost:5173/src" "ContextProvider" "tsx:8:33)" []);
    reflexivity.
Defined.
